(** * endfpy: the ENDF-6 evaluation reader (endf.py) and the MF=6 product
    reader (mf6.py), embedded as state-passing functions.

    The Python code reads records from a file object whose cursor it moves
    as it goes, fills dictionaries, and signals failure with exceptions.
    Here a file object is a value (the lines and a cursor), every reader is
    a function from a file object to either a value with the advanced file
    object or an exception, and dictionaries whose keys are string
    literals are records (a key that is set on some paths only is an
    [option] field).

    Python floats are carried as exact rationals ([Q]); rounding to
    binary64 is outside the model.  A text stream is the list of its lines,
    each line as [readline] returns it; [readline] at the end of the stream
    returns the empty string and leaves the cursor where it is. *)

From Stdlib Require Import ZArith QArith Qround String Ascii List Bool Lia.
From stdpp Require Import base list.
Import ListNotations.

#[local] Open Scope string_scope.
#[local] Open Scope list_scope.
#[local] Open Scope Z_scope.

(** ** Exceptions and the reader monad *)

Inductive exn : Type :=
| ValueError
| KeyError
| IndexError
| AssertionError
| UnboundLocalError
| FormatError
| SectionBoundaryError
| TruncatedStreamError
| OtherError (name : string).

Inductive result (A : Type) : Type :=
| Ok (a : A)
| Raise (e : exn).
Arguments Ok {A} a.
Arguments Raise {A} e.

(** A file object: the lines of the stream and the index of the next line. *)
Record file_obj : Type := mkFile { content : list string; pos : nat }.

(** A computation that reads from (and advances) a file object. *)
Definition reader (A : Type) : Type := file_obj -> result (A * file_obj).

Definition ret {A} (a : A) : reader A := fun f => Ok (a, f).

Definition bind {A B} (m : reader A) (k : A -> reader B) : reader B :=
  fun f => match m f with
           | Ok (a, f') => k a f'
           | Raise e => Raise e
           end.

Definition raise {A} (e : exn) : reader A := fun _ => Raise e.

Declare Scope reader_scope.
Delimit Scope reader_scope with reader.
Notation "'let*' p ':=' m 'in' k" := (bind m (fun p => k))
  (at level 10, p pattern, m at level 100, k at level 200) : reader_scope.
#[local] Open Scope reader_scope.

(** [for i in range(n): s = body(i, s)], started at index [i]. *)
Fixpoint for_range {S : Type} (n i : nat) (body : nat -> S -> reader S) (s : S)
  : reader S :=
  match n with
  | O => ret s
  | Datatypes.S n' =>
      let* s' := body i s in for_range n' (Datatypes.S i) body s'
  end.

(** [[m() for _ in range(n)]]: the values of [n] successive reads. *)
Fixpoint read_n {A : Type} (n : nat) (m : reader A) : reader (list A) :=
  match n with
  | O => ret []
  | Datatypes.S n' => let* a := m in let* l := read_n n' m in ret (a :: l)
  end.

(** [range(n)] for a Python integer [n]: empty when [n <= 0]. *)
Definition range_len (n : Z) : nat := Z.to_nat n.

(** ** File objects *)

Definition StringIO (text : list string) : file_obj := mkFile text 0.

Definition tell (f : file_obj) : nat := pos f.

Definition seek (p : nat) (f : file_obj) : file_obj := mkFile (content f) p.

Definition readline (f : file_obj) : string * file_obj :=
  match nth_error (content f) (pos f) with
  | Some l => (l, mkFile (content f) (Datatypes.S (pos f)))
  | None => (EmptyString, f)
  end.

(** [file_obj.readline()] inside a reader. *)
Definition readline_ : reader string := fun f => Ok (readline f).

(** ** Python built-ins used by the source *)

(** [s[a:b]] for constant [0 <= a <= b]: clipped at the end of [s]. *)
Definition py_slice (a b : nat) (s : string) : string :=
  substring a (b - a) s.

(** [l[a:b]] on lists. *)
Definition list_slice {A} (a b : nat) (l : list A) : list A :=
  firstn (b - a) (skipn a l).

Definition is_space (c : ascii) : bool :=
  let n := nat_of_ascii c in
  ((9 <=? n)%nat && (n <=? 13)%nat) || ((28 <=? n)%nat && (n <=? 32)%nat).

Definition is_digit (c : ascii) : bool :=
  let n := nat_of_ascii c in (48 <=? n)%nat && (n <=? 57)%nat.

Definition digit_val (c : ascii) : Z := Z.of_nat (nat_of_ascii c - 48).

Fixpoint lstrip (s : string) : string :=
  match s with
  | String c s' => if is_space c then lstrip s' else s
  | EmptyString => EmptyString
  end.

Fixpoint string_rev_onto (s acc : string) : string :=
  match s with
  | EmptyString => acc
  | String c s' => string_rev_onto s' (String c acc)
  end.

Definition string_rev (s : string) : string := string_rev_onto s EmptyString.

Definition strip (s : string) : string :=
  string_rev (lstrip (string_rev (lstrip s))).

(** The digits of an integer literal; single underscores may separate
    digits.  [after_digit] says whether the previous character was a digit. *)
Fixpoint int_digits (after_digit : bool) (acc : Z) (s : string) : option Z :=
  match s with
  | EmptyString => if after_digit then Some acc else None
  | String c s' =>
      if is_digit c then int_digits true (10 * acc + digit_val c) s'
      else if Ascii.eqb c "_" && after_digit then
        match s' with
        | String c' _ => if is_digit c' then int_digits false acc s' else None
        | EmptyString => None
        end
      else None
  end.

(** [int(s)] on an ASCII string; [None] stands for [ValueError]. *)
Definition py_int (s : string) : option Z :=
  match strip s with
  | String "-" r => option_map Z.opp (int_digits false 0 r)
  | String "+" r => int_digits false 0 r
  | t => int_digits false 0 t
  end.

(** [int(x)] on a float: truncation towards zero. *)
Definition py_int_of_float (x : Q) : Z :=
  if Qle_bool 0 x then Qfloor x else Qceiling x.

(** [divmod(x, d)] on a float [x] and a positive integer [d]. *)
Definition py_divmod (x : Q) (d : Z) : Q * Q :=
  let q := Qfloor (x / inject_Z d) in
  (inject_Z q, Qred (x - inject_Z (q * d))).

(** [x == n] for a float [x] and an integer [n]. *)
Definition float_eq_int (x : Q) (n : Z) : bool := Qeq_bool x (inject_Z n).

(** A Python dictionary with dynamic keys: the items in insertion order.
    Assigning to a key that is present replaces its value in place. *)
Section Dict.
Context {K V : Type} (eqb : K -> K -> bool).

Fixpoint dict_set (k : K) (v : V) (d : list (K * V)) : list (K * V) :=
  match d with
  | [] => [(k, v)]
  | (k', v') :: d' =>
      if eqb k k' then (k', v) :: d' else (k', v') :: dict_set k v d'
  end.

Fixpoint dict_get (k : K) (d : list (K * V)) : option V :=
  match d with
  | [] => None
  | (k', v') :: d' => if eqb k k' then Some v' else dict_get k d'
  end.

End Dict.

Definition key_eqb (a b : Z * Z) : bool :=
  (fst a =? fst b) && (snd a =? snd b).

(** NumPy: [np.zeros(n)] raises [ValueError] for a negative [n]. *)
Definition np_zeros (n : Z) : reader (list Q) :=
  if n <? 0 then raise ValueError else ret (replicate (Z.to_nat n) 0%Q).

(** ** Records (the interface of records.py)

    endf.py and mf6.py import six record readers from the module
    [records].  What the callers rely on is their shape: a HEAD, CONT, LIST
    or TAB2 record yields six items (two floats, four integers), a TAB1
    record yields four parameters and a tabulated function, a LIST record
    yields its values besides. *)

Record items : Type := mkItems {
  C1 : Q; C2 : Q; L1 : Z; L2 : Z; N1 : Z; N2 : Z
}.

Record tab1_params : Type := mkParams {
  p_C1 : Q; p_C2 : Q; p_L1 : Z; p_L2 : Z
}.

(** The interpolation regions of a TAB1 or TAB2 record. *)
Record Tabulated2D : Type := mkTab2 {
  breakpoints : list Z; interpolation : list Z
}.

Record Tabulated1D : Type := mkTab1 {
  regions : Tabulated2D; xs : list Q; ys : list Q
}.

Class Records : Type := {
  get_head_record : reader items;
  (** [get_cont_record(file_obj, skip_c)] *)
  get_cont_record : bool -> reader items;
  get_text_record : reader string;
  get_tab1_record : reader (tab1_params * Tabulated1D);
  get_list_record : reader (items * list Q);
  get_tab2_record : reader (items * Tabulated2D)
}.

(** The module [energy_distribution]: one decoder per energy law.  Only
    [ArbitraryTabulated] yields a dictionary that [_read_mf5] stores; the
    other five build objects that [_read_mf5] returns. *)
Class EnergyDistributions : Type := {
  arbitrary_dict : Type;
  energy_law : Type;
  ArbitraryTabulated_dict_from_endf : tab1_params -> reader arbitrary_dict;
  GeneralEvaporation_from_endf : tab1_params -> reader energy_law;
  MaxwellEnergy_from_endf : tab1_params -> reader energy_law;
  Evaporation_from_endf : tab1_params -> reader energy_law;
  WattEnergy_from_endf : tab1_params -> reader energy_law;
  MadlandNix_from_endf : tab1_params -> reader energy_law
}.

(** ** endf.py *)

Module endf.

(** *** The tables *)

Definition _LIBRARY : list (Z * string) :=
  [(0, "ENDF/B"); (1, "ENDF/A"); (2, "JEFF"); (3, "EFF");
   (4, "ENDF/B High Energy"); (5, "CENDL"); (6, "JENDL");
   (17, "TENDL"); (18, "ROSFOND"); (21, "SG-21"); (31, "INDL/V");
   (32, "INDL/A"); (33, "FENDL"); (34, "IRDF"); (35, "BROND");
   (36, "INGDB-90"); (37, "FENDL/A"); (41, "BROND")].

Definition _SUBLIBRARY : list (Z * string) :=
  [(0, "Photo-nuclear data");
   (1, "Photo-induced fission product yields");
   (3, "Photo-atomic data");
   (4, "Radioactive decay data");
   (5, "Spontaneous fission product yields");
   (6, "Atomic relaxation data");
   (10, "Incident-neutron data");
   (11, "Neutron-induced fission product yields");
   (12, "Thermal neutron scattering data");
   (19, "Neutron standards");
   (113, "Electro-atomic data");
   (10010, "Incident-proton data");
   (10011, "Proton-induced fission product yields");
   (10020, "Incident-deuteron data");
   (10030, "Incident-triton data");
   (20030, "Incident-helion (3He) data");
   (20040, "Incident-alpha data")].

(** *** The dictionaries that [_read_mf1_mt451] fills *)

Record target_t : Type := mkTarget {
  atomic_number : Q;
  mass_number : Q;
  mass : Q;
  fissionable : bool;
  excitation_energy : Q;
  stable : bool;
  state : Z;
  isomeric_state : Z;
  temperature : Q;
  zsymam : string
}.

(** The keys of [info] that are set only when at least five text records
    are present. *)
Record description_t : Type := mkDescription {
  laboratory : string;
  date : string;
  author : string;
  reference : string;
  date_distribution : string;
  date_release : string;
  date_entry : string;
  identifier : list string;
  description : list string
}.

Record info_t : Type := mkInfo {
  modification : Z;
  format : Z;
  energy_max : Q;
  sublibrary : string;
  library : string * Z * Z;
  derived : bool;
  described : option description_t
}.

(** What [_read_mf1_mt451] sets on the evaluation. *)
Record header_t : Type := mkHeader {
  target : target_t;
  info : info_t;
  projectile_mass : Q;
  _LRP : Z;
  reaction_list : list (Z * Z * Z * Z)
}.

Definition sections_t : Type := list ((Z * Z) * list string).

Section Readers.
Context {R : Records} {ED : EnergyDistributions}.

(** [self.section[mf, mt]]: a missing key raises [KeyError]. *)
Definition section_lookup (section : sections_t) (mf mt : Z)
  : result (list string) :=
  match dict_get key_eqb (mf, mt) section with
  | Some text => Ok text
  | None => Raise KeyError
  end.

(** The loop that fills [reaction_list]. *)
Definition read_reaction : reader (Z * Z * Z * Z) :=
  let* it := get_cont_record true in
  ret (L1 it, L2 it, N1 it, N2 it).

(** The body of [_read_mf1_mt451] after [file_obj] is opened. *)
Definition read_mf1_mt451_body : reader header_t :=
  (* Information about target/projectile *)
  let* items0 := get_head_record in
  let '(Z_, A_) := py_divmod (C1 items0) 1000 in
  let fissionable_ := L2 items0 =? 1 in
  let library_ :=
    match dict_get Z.eqb (N1 items0) _LIBRARY with
    | Some name => name
    | None => "Unknown"
    end in
  (* Control record 1 *)
  let* items1 := get_cont_record false in
  let m := L2 items1 in
  if negb (N2 items1 =? 6) then raise AssertionError else
  let state_ :=
    if float_eq_int Z_ 95 && float_eq_int A_ 242 && (m =? 1)
    then 2 else L1 items1 in
  (* Control record 2 *)
  let* items2 := get_cont_record false in
  let library_release := L1 items2 in
  match dict_get Z.eqb (N1 items2) _SUBLIBRARY with
  | None => raise KeyError
  | Some sublibrary_ =>
  let library_version := N2 items2 in
  (* Control record 3 *)
  let* items3 := get_cont_record false in
  let NWD := N1 items3 in
  let NXC := N2 items3 in
  (* Text records *)
  let* text := read_n (range_len NWD) get_text_record in
  let t0 := nth 0 text EmptyString in
  let t1 := nth 1 text EmptyString in
  let '(zsymam_, described_) :=
    if (5 <=? length text)%nat then
      (py_slice 0 11 t0,
       Some {| laboratory := py_slice 11 22 t0;
               date := py_slice 22 32 t0;
               author := py_slice 32 66 t0;
               reference := py_slice 1 22 t1;
               date_distribution := py_slice 22 32 t1;
               date_release := py_slice 33 43 t1;
               date_entry := py_slice 55 63 t1;
               identifier := list_slice 2 5 text;
               description := skipn 5 text |})
    else ("Unknown", None) in
  (* File numbers, reaction designations, and number of records *)
  let* reactions := read_n (range_len NXC) read_reaction in
  ret {| target :=
           {| atomic_number := Z_;
              mass_number := A_;
              mass := C2 items0;
              fissionable := fissionable_;
              excitation_energy := C1 items1;
              stable := py_int_of_float (C2 items1) =? 0;
              state := state_;
              isomeric_state := m;
              temperature := C1 items3;
              zsymam := zsymam_ |};
         info :=
           {| modification := N2 items0;
              format := N2 items1;
              energy_max := C2 items2;
              sublibrary := sublibrary_;
              library := (library_, library_version, library_release);
              derived := 0 <? L1 items3;
              described := described_ |};
         projectile_mass := C1 items2;
         _LRP := L1 items0;
         reaction_list := reactions |}
  end.

Definition _read_mf1_mt451 (section : sections_t) : result header_t :=
  match section_lookup section 1 451 with
  | Raise e => Raise e
  | Ok text =>
      match read_mf1_mt451_body (StringIO text) with
      | Ok (h, _) => Ok h
      | Raise e => Raise e
      end
  end.

(** *** MF=3: cross sections *)

Record cross_section_t : Type := mkXS {
  QM : Q; QI : Q; LR : Z; sigma : Tabulated1D
}.

Definition read_mf3_section : reader cross_section_t :=
  let* _ := get_head_record in
  let* (params, xs) := get_tab1_record in
  ret {| QM := p_C1 params; QI := p_C2 params; LR := p_L2 params;
         sigma := xs |}.

Fixpoint read_mf3_items (l : sections_t) (cross_sections : list (Z * cross_section_t))
  : result (list (Z * cross_section_t)) :=
  match l with
  | [] => Ok cross_sections
  | ((mf, mt), text) :: l' =>
      if negb (mf =? 3) then read_mf3_items l' cross_sections
      else match read_mf3_section (StringIO text) with
           | Raise e => Raise e
           | Ok (xs, _) =>
               read_mf3_items l' (dict_set Z.eqb mt xs cross_sections)
           end
  end.

Definition _read_mf3 (section : sections_t)
  : result (list (Z * cross_section_t)) :=
  read_mf3_items section [].

(** *** MF=4: angular distributions *)

(** The dictionary [legendre_data] builds; ['T'] and ['LT'] are set inside
    the loop over the energy points. *)
Record legendre_t : Type := mkLegendre {
  lg_E_int : Tabulated2D;
  lg_T : option Q;
  lg_LT : option Z;
  lg_a_l : list (list Q);
  lg_E : list Q
}.

(** The dictionary [tabulated_data] builds. *)
Record tabulated_t : Type := mkTabulated {
  tb_E_int : Tabulated2D;
  tb_T : option Q;
  tb_LT : option Z;
  tb_E : list Q;
  tb_mu : list Tabulated1D
}.

Record angular_t : Type := mkAngular {
  LTT : Z;
  LI : Z;
  LCT : Z;
  legendre : option legendre_t;
  tabulated : option tabulated_t
}.

(** One turn of the loop of [legendre_data]: the state is ([data['T']],
    [data['LT']], [energy], [a_l]). *)
Definition legendre_step (i : nat)
    (st : option Q * option Z * list Q * list (list Q))
  : reader (option Q * option Z * list Q * list (list Q)) :=
  let '(_, _, energy, a_l) := st in
  let* (items, al) := get_list_record in
  ret (Some (C1 items), Some (L1 items), <[i := C2 items]> energy, a_l ++ [al]).

Definition legendre_data : reader legendre_t :=
  let* (params, E_int) := get_tab2_record in
  let n_energy := N2 params in
  let* energy := np_zeros n_energy in
  let* (T, LT, energy, a_l) :=
    for_range (range_len n_energy) 0 legendre_step (None, None, energy, []) in
  ret {| lg_E_int := E_int; lg_T := T; lg_LT := LT;
         lg_a_l := a_l; lg_E := energy |}.

(** One turn of the loop of [tabulated_data]: the state is ([data['T']],
    [data['LT']], [energy], [mu]). *)
Definition tabulated_step (i : nat)
    (st : option Q * option Z * list Q * list Tabulated1D)
  : reader (option Q * option Z * list Q * list Tabulated1D) :=
  let '(_, _, energy, mu) := st in
  let* (params, f) := get_tab1_record in
  ret (Some (p_C1 params), Some (p_L1 params),
       <[i := p_C2 params]> energy, mu ++ [f]).

Definition tabulated_data : reader tabulated_t :=
  let* (params, E_int) := get_tab2_record in
  let n_energy := N2 params in
  let* energy := np_zeros n_energy in
  let* (T, LT, energy, mu) :=
    for_range (range_len n_energy) 0 tabulated_step (None, None, energy, []) in
  ret {| tb_E_int := E_int; tb_T := T; tb_LT := LT;
         tb_E := energy; tb_mu := mu |}.

Definition obsolete_matrix_warning : string :=
  "Obsolete energy transformation matrix in MF=4 angular distribution.".

(** The body of the loop of [_read_mf4] for one MF=4 section: the entry of
    [angular_distributions] and the warnings issued. *)
Definition read_mf4_section : reader (angular_t * list string) :=
  (* Read HEAD record *)
  let* items := get_head_record in
  let LVT := L1 items in
  let LTT_ := L2 items in
  (* Read CONT record *)
  let* items := get_cont_record false in
  let LI_ := L1 items in
  let LCT_ := L2 items in
  let NK := N1 items in
  let data := {| LTT := LTT_; LI := LI_; LCT := LCT_;
                 legendre := None; tabulated := None |} in
  let* warned :=
    if 0 <? LVT then
      let* _ := read_n (range_len ((NK + 5) / 6)) readline_ in
      ret [obsolete_matrix_warning]
    else ret [] in
  if (LTT_ =? 0) && (LI_ =? 1) then
    (* Purely isotropic *)
    ret (data, warned)
  else if (LTT_ =? 1) && (LI_ =? 0) then
    let* lg := legendre_data in
    ret ({| LTT := LTT_; LI := LI_; LCT := LCT_;
            legendre := Some lg; tabulated := None |}, warned)
  else if (LTT_ =? 2) && (LI_ =? 0) then
    let* tb := tabulated_data in
    ret ({| LTT := LTT_; LI := LI_; LCT := LCT_;
            legendre := None; tabulated := Some tb |}, warned)
  else if (LTT_ =? 3) && (LI_ =? 0) then
    let* lg := legendre_data in
    let* tb := tabulated_data in
    ret ({| LTT := LTT_; LI := LI_; LCT := LCT_;
            legendre := Some lg; tabulated := Some tb |}, warned)
  else
    (* the chain of [if]/[elif] has no [else] *)
    ret (data, warned).

Fixpoint read_mf4_items (l : sections_t)
    (st : list (Z * angular_t) * list string)
  : result (list (Z * angular_t) * list string) :=
  match l with
  | [] => Ok st
  | ((mf, mt), text) :: l' =>
      if negb (mf =? 4) then read_mf4_items l' st
      else match read_mf4_section (StringIO text) with
           | Raise e => Raise e
           | Ok ((data, warned), _) =>
               read_mf4_items l'
                 (dict_set Z.eqb mt data (fst st), snd st ++ warned)
           end
  end.

(** [_read_mf4]: [angular_distributions] and the warnings issued. *)
Definition _read_mf4 (section : sections_t)
  : result (list (Z * angular_t) * list string) :=
  read_mf4_items section ([], []).

(** *** MF=5: energy distributions *)

Record subsection_t : Type := mkSubsection {
  LF : Z;
  p : Tabulated1D;
  distribution : arbitrary_dict
}.

Record energy_distribution_t : Type := mkEnergyDistribution {
  NK : Z;
  subsections : list subsection_t
}.

(** What the chain of [if]/[elif] on [LF] does to the local variable
    [dist]: it is bound (or left as it was), or the method returns. *)
Inductive lf_outcome : Type :=
| Bound (dist : option arbitrary_dict)
| Returned (r : energy_law).

(** The dispatch on [LF]; [dist] is the local variable of [_read_mf5],
    [None] while it is unbound. *)
Definition mf5_dispatch (LF_ : Z) (params : tab1_params)
    (dist : option arbitrary_dict) : reader lf_outcome :=
  if LF_ =? 1 then
    let* d := ArbitraryTabulated_dict_from_endf params in ret (Bound (Some d))
  else if LF_ =? 5 then
    let* r := GeneralEvaporation_from_endf params in ret (Returned r)
  else if LF_ =? 7 then
    let* r := MaxwellEnergy_from_endf params in ret (Returned r)
  else if LF_ =? 9 then
    let* r := Evaporation_from_endf params in ret (Returned r)
  else if LF_ =? 11 then
    let* r := WattEnergy_from_endf params in ret (Returned r)
  else if LF_ =? 12 then
    let* r := MadlandNix_from_endf params in ret (Returned r)
  else ret (Bound dist).

(** How a loop of [_read_mf5] ends: it runs to its end, or the method
    returns from inside it.  Either way the state reached is kept. *)
Inductive flow (S : Type) : Type :=
| Continue (s : S)
| Return (s : S) (r : energy_law).
Arguments Continue {S} s.
Arguments Return {S} s r.

(** [for _ in range(NK)] of [_read_mf5]; the state is the local [dist] and
    [data['subsections']]. *)
Fixpoint mf5_subsections (n : nat) (dist : option arbitrary_dict)
    (subs : list subsection_t)
  : reader (flow (option arbitrary_dict * list subsection_t)) :=
  match n with
  | O => ret (Continue (dist, subs))
  | Datatypes.S n' =>
      let* (params, applicability) := get_tab1_record in
      let LF_ := p_L2 params in
      let* o := mf5_dispatch LF_ params dist in
      match o with
      | Returned r => ret (Return (dist, subs) r)
      | Bound None => raise UnboundLocalError
      | Bound (Some d) =>
          mf5_subsections n' (Some d)
            (subs ++ [{| LF := LF_; p := applicability; distribution := d |}])
      end
  end.

(** The body of the outer loop of [_read_mf5] for one MF=5 section, on
    the file object opened on [self.section[5, mt]] (the text of the item
    at hand). *)
Definition read_mf5_section (dist : option arbitrary_dict)
  : reader (flow (option arbitrary_dict * energy_distribution_t)) :=
  let* items := get_head_record in
  let NK_ := N1 items in
  let* r := mf5_subsections (range_len NK_) dist [] in
  match r with
  | Continue (dist', subs) =>
      ret (Continue (dist', {| NK := NK_; subsections := subs |}))
  | Return (dist', subs) v =>
      ret (Return (dist', {| NK := NK_; subsections := subs |}) v)
  end.

Fixpoint read_mf5_items (l : sections_t) (dist : option arbitrary_dict)
    (energy_distributions : list (Z * energy_distribution_t))
  : result (list (Z * energy_distribution_t) * option energy_law) :=
  match l with
  | [] => Ok (energy_distributions, None)
  | ((mf, mt), text) :: l' =>
      if negb (mf =? 5) then read_mf5_items l' dist energy_distributions
      else match read_mf5_section dist (StringIO text) with
           | Raise e => Raise e
           | Ok (Continue (dist', data), _) =>
               read_mf5_items l' dist'
                 (dict_set Z.eqb mt data energy_distributions)
           | Ok (Return (_, data) v, _) =>
               Ok (dict_set Z.eqb mt data energy_distributions, Some v)
           end
  end.

(** [_read_mf5]: [energy_distributions] as the method leaves it, and the
    value it returns ([None] when it runs to its end). *)
Definition _read_mf5 (section : sections_t)
  : result (list (Z * energy_distribution_t) * option energy_law) :=
  read_mf5_items section None [].

(** *** The evaluation *)

Record Evaluation : Type := mkEvaluation {
  material : Z;
  section : sections_t;
  header : header_t;
  cross_sections : list (Z * cross_section_t);
  angular_distributions : list (Z * angular_t);
  warnings : list string;
  energy_distributions : list (Z * energy_distribution_t)
}.

(** The loops of [__init__] scan as long as the stream lasts; they are
    given fuel, and [None] means that the fuel ran out. *)

(** [while MF == 0]: the line that ends the loop and the position before it. *)
Fixpoint find_material (fuel : nat) (fh : file_obj)
  : option (result (string * nat * file_obj)) :=
  match fuel with
  | O => None
  | Datatypes.S fuel' =>
      let position := tell fh in
      let (line, fh) := readline fh in
      match py_int (py_slice 70 72 line) with
      | None => Some (Raise ValueError)
      | Some MF =>
          if MF =? 0 then find_material fuel' fh
          else Some (Ok (line, position, fh))
      end
  end.

(** Find next section: [MAT], [MF], [MT] of the line that ends the loop;
    the stream is left before that line. *)
Fixpoint find_section (fuel : nat) (fh : file_obj)
  : option (result (Z * Z * Z * file_obj)) :=
  match fuel with
  | O => None
  | Datatypes.S fuel' =>
      let position := tell fh in
      let (line, fh) := readline fh in
      match py_int (py_slice 66 70 line) with
      | None => Some (Raise ValueError)
      | Some MAT =>
      match py_int (py_slice 70 72 line) with
      | None => Some (Raise ValueError)
      | Some MF =>
      match py_int (py_slice 72 75 line) with
      | None => Some (Raise ValueError)
      | Some MT =>
          if (0 <? MT) || (MAT =? 0)
          then Some (Ok (MAT, MF, MT, seek position fh))
          else find_section fuel' fh
      end end end
  end.

(** The loop that gathers [section_data]: all lines up to the first whose
    columns 72..74 read ['  0'].  At the end of the stream [readline]
    returns [''], which leaves [section_data] as it is. *)
Fixpoint read_section_data (fuel : nat) (fh : file_obj)
    (section_data : list string) : option (list string * file_obj) :=
  match fuel with
  | O => None
  | Datatypes.S fuel' =>
      let (line, fh) := readline fh in
      if String.eqb (py_slice 72 75 line) "  0" then Some (section_data, fh)
      else read_section_data fuel' fh
             (if String.eqb line EmptyString then section_data
              else section_data ++ [line])
  end.

(** The outer [while True] of [__init__]. *)
Fixpoint read_sections (fuel : nat) (fh : file_obj) (section_ : sections_t)
  : option (result (sections_t * file_obj)) :=
  match fuel with
  | O => None
  | Datatypes.S fuel' =>
      match find_section fuel' fh with
      | None => None
      | Some (Raise e) => Some (Raise e)
      | Some (Ok (MAT, MF, MT, fh)) =>
          (* If end of material reached, exit loop *)
          if MAT =? 0 then Some (Ok (section_, snd (readline fh)))
          else
            match read_section_data fuel' fh [] with
            | None => None
            | Some (section_data, fh) =>
                read_sections fuel' fh
                  (dict_set key_eqb (MF, MT) section_data section_)
            end
      end
  end.

(** [Evaluation(fh)] for an open file object [fh]. *)
Definition Evaluation_init (fuel : nat) (fh : file_obj)
  : option (result (Evaluation * file_obj)) :=
  (* Skip TPID record *)
  let fh := if (tell fh =? 0)%nat then snd (readline fh) else fh in
  (* Determine MAT number for this evaluation *)
  match find_material fuel fh with
  | None => None
  | Some (Raise e) => Some (Raise e)
  | Some (Ok (line, position, fh)) =>
  match py_int (py_slice 66 70 line) with
  | None => Some (Raise ValueError)
  | Some material_ =>
  let fh := seek position fh in
  match read_sections fuel fh [] with
  | None => None
  | Some (Raise e) => Some (Raise e)
  | Some (Ok (section_, fh)) =>
  Some
    match _read_mf1_mt451 section_ with
    | Raise e => Raise e
    | Ok header_ =>
    match _read_mf3 section_ with
    | Raise e => Raise e
    | Ok cross_sections_ =>
    match _read_mf4 section_ with
    | Raise e => Raise e
    | Ok (angular_distributions_, warnings_) =>
    match _read_mf5 section_ with
    | Raise e => Raise e
    | Ok (energy_distributions_, _) =>
        Ok ({| material := material_;
               section := section_;
               header := header_;
               cross_sections := cross_sections_;
               angular_distributions := angular_distributions_;
               warnings := warnings_;
               energy_distributions := energy_distributions_ |}, fh)
    end end end end
  end end end.

(** The loop of [get_evaluations]. *)
Fixpoint get_evaluations_loop (fuel : nat) (fh : file_obj)
    (evaluations : list Evaluation) : option (result (list Evaluation)) :=
  match fuel with
  | O => None
  | Datatypes.S fuel' =>
      let pos_ := tell fh in
      let (line, fh) := readline fh in
      if String.eqb (py_slice 66 70 line) "  -1" then Some (Ok evaluations)
      else
        let fh := seek pos_ fh in
        match Evaluation_init fuel' fh with
        | None => None
        | Some (Raise e) => Some (Raise e)
        | Some (Ok (ev, fh)) =>
            get_evaluations_loop fuel' fh (evaluations ++ [ev])
        end
  end.

(** [get_evaluations(filename)], on the lines of the file. *)
Definition get_evaluations (fuel : nat) (lines : list string)
  : option (result (list Evaluation)) :=
  get_evaluations_loop fuel (mkFile lines 0) [].

End Readers.

Arguments Continue {ED S} s.
Arguments Return {ED S} s r.

End endf.

(** ** mf6.py *)

(** NumPy's two-dimensional arrays, as much as mf6.py uses: assigning a
    pair to [values.shape] either rearranges the values into rows or raises. *)
Record ndarray2 : Type := mkArray2 {
  nrows : nat; ncols : nat; rows : list (list Q)
}.

Class Numpy : Type := {
  (** [values = np.asarray(values); values.shape = (a, b)] *)
  np_set_shape : list Q -> Z -> Z -> result ndarray2
}.

Module mf6.

(** The entry of [ContinuumEnergyAngle] for one incident energy. *)
Record continuum_dist_t : Type := mkContinuumDist {
  ND : Z; NA : Z; NW : Z; NEP : Z;
  E' : list Q;
  b : list (list Q)
}.

Record continuum_t : Type := mkContinuum {
  c_LANG : Z; c_LEP : Z; c_NR : Z; c_NE : Z;
  c_E_int : Tabulated2D;
  c_E : list Q;
  c_distribution : list continuum_dist_t
}.

(** The entry of [DiscreteTwoBodyScattering] for one incident energy. *)
Record discrete_dist_t : Type := mkDiscreteDist {
  d_LANG : Z; d_NW : Z; d_NL : Z
}.

(** The local dictionary [data] of
    [DiscreteTwoBodyScattering.dict_from_endf]; ['A_l'] is set inside the
    loop. *)
Record discrete_t : Type := mkDiscrete {
  d_NR : Z; d_NE : Z;
  d_E_int : Tabulated2D;
  d_E : list Q;
  d_A_l : option (list Q);
  d_distribution : list discrete_dist_t
}.

(** The values that [p['distribution']] can hold. *)
Inductive distribution_t : Type :=
| ContinuumDict (data : continuum_t)
| PyNone
| EmptyDict
| NBodyDict (APSX : Q) (NPSX : Z).

Record product_t : Type := mkProduct {
  ZAP : Z;
  AWP : Q;
  LIP : Z;
  LAW : Z;
  y_i : Tabulated1D;
  distribution : option distribution_t
}.

Record mf6_t : Type := mkMF6 {
  ZA : Q; AWR : Q; JP : Z; LCT : Z; NK : Z;
  products : list product_t
}.

Section Readers.
Context {R : Records} {NP : Numpy}.


(** [values[:, 0]]: column 0 of every row; an array without columns has no
    column 0. *)
Definition column0 (values : ndarray2) : reader (list Q) :=
  if (ncols values =? 0)%nat then raise IndexError
  else ret (map (fun r => nth 0 r 0%Q) (rows values)).

(** [values[:, 1:]] *)
Definition columns_from1 (values : ndarray2) : list (list Q) :=
  map (skipn 1) (rows values).

Definition continuum_step (i : nat) (st : list Q * list continuum_dist_t)
  : reader (list Q * list continuum_dist_t) :=
  let '(E, distribution_) := st in
  let* (items, values) := get_list_record in
  let E_i := C2 items in
  let ND_ := L1 items in
  let NA_ := L2 items in
  let NW_ := N1 items in
  let NEP_ := N2 items in
  let E := <[i := E_i]> E in
  let* values := (fun f => match np_set_shape values NEP_ (NA_ + 2) with
                           | Ok v => Ok (v, f)
                           | Raise e => Raise e
                           end) in
  let* col := column0 values in
  ret (E, distribution_ ++
            [{| ND := ND_; NA := NA_; NW := NW_; NEP := NEP_;
                E' := col; b := columns_from1 values |}]).

Definition ContinuumEnergyAngle_dict_from_endf : reader distribution_t :=
  let* (params, E_int) := get_tab2_record in
  let LANG := L1 params in
  let LEP := L2 params in
  let NR := N1 params in
  let NE := N2 params in
  let* E := np_zeros NE in
  let* (E, distribution_) :=
    for_range (range_len NE) 0 continuum_step (E, []) in
  ret (ContinuumDict
         {| c_LANG := LANG; c_LEP := LEP; c_NR := NR; c_NE := NE;
            c_E_int := E_int; c_E := E; c_distribution := distribution_ |}).

Definition discrete_step (i : nat)
    (st : list Q * option (list Q) * list discrete_dist_t)
  : reader (list Q * option (list Q) * list discrete_dist_t) :=
  let '(E, _, distribution_) := st in
  let* (items, values) := get_list_record in
  let E_i := C2 items in
  let LANG := L1 items in
  let NW_ := N1 items in
  let NL := N2 items in
  ret (<[i := E_i]> E, Some values,
       distribution_ ++ [{| d_LANG := LANG; d_NW := NW_; d_NL := NL |}]).

(** The dictionary [data] that [DiscreteTwoBodyScattering.dict_from_endf]
    has built when it reaches its last line. *)
Definition DiscreteTwoBodyScattering_data : reader discrete_t :=
  let* (params, E_int) := get_tab2_record in
  let NR := N1 params in
  let NE := N2 params in
  let* E := np_zeros NE in
  let* (E, A_l, distribution_) :=
    for_range (range_len NE) 0 discrete_step (E, None, []) in
  ret {| d_NR := NR; d_NE := NE; d_E_int := E_int; d_E := E;
         d_A_l := A_l; d_distribution := distribution_ |}.

(** The method has no [return] statement: it builds [data] and falls off
    its end, so its value is [None]. *)
Definition DiscreteTwoBodyScattering_dict_from_endf : reader distribution_t :=
  let* _ := DiscreteTwoBodyScattering_data in
  ret PyNone.

Definition ChargedParticleElasticScattering_dict_from_endf
  : reader distribution_t :=
  ret EmptyDict.

Definition NBodyPhaseSpace_dict_from_endf : reader distribution_t :=
  let* items := get_cont_record false in
  ret (NBodyDict (C1 items) (N2 items)).

Definition LaboratoryAngleEnergy_dict_from_endf : reader distribution_t :=
  ret EmptyDict.

(** The chain of [if]/[elif] on [LAW]: the value of [p['distribution']], or
    [None] when the key is not set. *)
Definition law_dispatch (LAW_ : Z) : reader (option distribution_t) :=
  if LAW_ <? 0 then ret None
  else if LAW_ =? 0 then ret None
  else if LAW_ =? 1 then
    let* d := ContinuumEnergyAngle_dict_from_endf in ret (Some d)
  else if LAW_ =? 2 then
    let* d := DiscreteTwoBodyScattering_dict_from_endf in ret (Some d)
  else if LAW_ =? 3 then ret None
  else if LAW_ =? 4 then ret None
  else if LAW_ =? 5 then
    let* d := ChargedParticleElasticScattering_dict_from_endf in ret (Some d)
  else if LAW_ =? 6 then
    let* d := NBodyPhaseSpace_dict_from_endf in ret (Some d)
  else if LAW_ =? 7 then
    let* d := LaboratoryAngleEnergy_dict_from_endf in ret (Some d)
  else ret None.

(** The body of the loop of [parse_mf6]: one product. *)
Definition read_product : reader product_t :=
  (* Get yield for this product *)
  let* (params, y_i_) := get_tab1_record in
  let ZAP_ := py_int_of_float (p_C1 params) in
  let LAW_ := p_L2 params in
  let* d := law_dispatch LAW_ in
  ret {| ZAP := ZAP_; AWP := p_C2 params; LIP := p_L1 params; LAW := LAW_;
         y_i := y_i_; distribution := d |}.

Definition parse_mf6 : reader mf6_t :=
  (* Read HEAD record *)
  let* items := get_head_record in
  let NK_ := N1 items in
  let* products_ := read_n (range_len NK_) read_product in
  ret {| ZA := C1 items; AWR := C2 items; JP := L1 items; LCT := L2 items;
         NK := NK_; products := products_ |}.

End Readers.

End mf6.

(** ** A model of records.py and of the text of a section

    records.py is not among the sources.  The definitions of this module
    follow the specification of the record decoder (fixed columns, counts
    in the control line, six cells a line), and give the concrete inputs
    below something to run on.  The theorems about endf.py and mf6.py are
    stated for every instance of [Records]. *)

Module records_model.

Definition lift {A} (r : result A) : reader A :=
  fun f => match r with Ok a => Ok (a, f) | Raise e => Raise e end.

(** Modelled from the spec: records.py's reading of one line; a stream
    that ends inside a record is an error ([TruncatedStreamError]). *)
Definition next_line : reader string :=
  fun f => let (line, f') := readline f in
           if String.eqb line EmptyString then Raise TruncatedStreamError
           else Ok (line, f').

(** Modelled from the spec: records.py's cells; numeric fields are 11
    characters wide, packed from column 0, six to a line. *)
Definition cell (k : nat) (line : string) : string :=
  py_slice (11 * k) (11 * k + 11) line.

Definition blank (s : string) : bool :=
  match strip s with EmptyString => true | _ => false end.

(** Modelled from the spec: records.py's integer field decoder; a
    right-justified ASCII integer, a blank field is 0, anything else is a
    [FormatError]. *)
Definition int_endf (s : string) : result Z :=
  if blank s then Ok 0
  else match py_int s with
       | Some z => Ok z
       | None => Raise FormatError
       end.

Definition is_sign (c : ascii) : bool := Ascii.eqb c "+" || Ascii.eqb c "-".

(** Modelled from the spec: records.py's search for the exponent; the
    index of the rightmost sign that is not at position 0. *)
Fixpoint rightmost_sign (i : nat) (s : string) : option nat :=
  match s with
  | EmptyString => None
  | String c s' =>
      match rightmost_sign (Datatypes.S i) s' with
      | Some j => Some j
      | None => if negb (i =? 0)%nat && is_sign c then Some i else None
      end
  end.

(** The leading digits of [s]: their value after [acc], how many there
    are, and the rest of [s]. *)
Fixpoint leading_digits (s : string) (acc : Z) (n : nat) : Z * nat * string :=
  match s with
  | String c s' =>
      if is_digit c then leading_digits s' (10 * acc + digit_val c) (Datatypes.S n)
      else (acc, n, s)
  | EmptyString => (acc, n, s)
  end.

(** Modelled from the spec: records.py's plain decimals; an unsigned
    decimal [digits[.digits]] with at least one digit. *)
Definition unsigned_decimal (s : string) : option Q :=
  let '(ip, n1, rest) := leading_digits s 0 0 in
  match rest with
  | EmptyString => if (n1 =? 0)%nat then None else Some (inject_Z ip)
  | String "." r =>
      let '(v, n2, rest') := leading_digits r ip 0 in
      match rest' with
      | EmptyString =>
          if (n1 + n2 =? 0)%nat then None
          else Some (inject_Z v / inject_Z (10 ^ Z.of_nat n2))%Q
      | _ => None
      end
  | _ => None
  end.

Definition plain_decimal (s : string) : option Q :=
  match s with
  | String "-" r => option_map Qopp (unsigned_decimal r)
  | String "+" r => unsigned_decimal r
  | _ => unsigned_decimal s
  end.

(** Modelled from the spec: records.py's numeric field decoder; the
    rightmost sign that is not at position 0 of the field (blanks aside)
    starts an exponent written without its letter, the value is mantissa
    times ten to the exponent, a blank field is 0, anything else is a
    [FormatError]. *)
Definition float_endf (s : string) : result Q :=
  let t := strip s in
  if String.eqb t EmptyString then Ok 0%Q
  else
    match rightmost_sign 0 t with
    | Some j =>
        match plain_decimal (substring 0 j t),
              py_int (substring j (String.length t - j) t) with
        | Some m, Some e => Ok (Qred (m * Qpower (inject_Z 10) e))
        | _, _ => Raise FormatError
        end
    | None =>
        match plain_decimal t with
        | Some m => Ok (Qred m)
        | None => Raise FormatError
        end
    end.

(** Modelled from the spec: records.py's decoding of a HEAD or CONT line;
    six fields, two numeric and four integer.  With [skip_c] the two
    numeric fields are not decoded (the caller drops them) and read as 0. *)
Definition decode_control (skip_c : bool) (line : string) : result items :=
  match (if skip_c then Ok 0%Q else float_endf (cell 0 line)) with
  | Raise e => Raise e
  | Ok c1 =>
  match (if skip_c then Ok 0%Q else float_endf (cell 1 line)) with
  | Raise e => Raise e
  | Ok c2 =>
  match int_endf (cell 2 line) with
  | Raise e => Raise e
  | Ok l1 =>
  match int_endf (cell 3 line) with
  | Raise e => Raise e
  | Ok l2 =>
  match int_endf (cell 4 line) with
  | Raise e => Raise e
  | Ok n1 =>
  match int_endf (cell 5 line) with
  | Raise e => Raise e
  | Ok n2 => Ok (mkItems c1 c2 l1 l2 n1 n2)
  end end end end end end.

(** Modelled from the spec: records.py's view of the tags of a line; the
    file and section tags are columns 70..74. *)
Definition tags (line : string) : string := py_slice 70 75 line.

(** Modelled from the spec: records.py's decoding of a line of values;
    the first [n] cells, in order. *)
Fixpoint decode_cells {A} (decode : string -> result A) (k n : nat)
    (line : string) : result (list A) :=
  match n with
  | O => Ok []
  | Datatypes.S n' =>
      match decode (cell k line) with
      | Raise e => Raise e
      | Ok a =>
          match decode_cells decode (Datatypes.S k) n' line with
          | Raise e => Raise e
          | Ok l => Ok (a :: l)
          end
      end
  end.

(** Modelled from the spec: records.py's reading of the lines that follow
    a control line; [count] values in [lines] lines, six to a line, the
    unused cells of the last line ignored.  A line whose tags differ from
    the control line's is a [SectionBoundaryError]. *)
Fixpoint read_cells {A} (decode : string -> result A) (tag : string)
    (lines count : nat) : reader (list A) :=
  match lines with
  | O => ret []
  | Datatypes.S lines' =>
      let* line := next_line in
      if negb (String.eqb (tags line) tag) then raise SectionBoundaryError
      else
        let take := Nat.min 6 count in
        let* vs := lift (decode_cells decode 0 take line) in
        let* rest := read_cells decode tag lines' (count - take) in
        ret (vs ++ rest)
  end.

Definition read_values {A} (decode : string -> result A) (tag : string)
    (count : nat) : reader (list A) :=
  read_cells decode tag ((count + 5) / 6)%nat count.

(** The elements at even and at odd positions of a list of pairs laid out
    flat. *)
Fixpoint unzip_flat {A} (l : list A) : list A * list A :=
  match l with
  | a :: b :: l' => let (xs, ys) := unzip_flat l' in (a :: xs, b :: ys)
  | _ => ([], [])
  end.

(** Modelled from the spec: records.py's [get_head_record] and
    [get_cont_record]; exactly one line. *)
Definition read_control (skip_c : bool) : reader items :=
  let* line := next_line in lift (decode_control skip_c line).

(** Modelled from the spec: records.py's [get_text_record]; exactly one
    line, the 66 characters of text unmodified. *)
Definition read_text : reader string :=
  let* line := next_line in ret (py_slice 0 66 line).

(** Modelled from the spec: records.py's [get_list_record]; a control line
    and the values it counts.  The callers in mf6.py name the fifth item
    of the control line [NW], the number of words, and it is the count. *)
Definition read_list : reader (items * list Q) :=
  let* line := next_line in
  let* it := lift (decode_control false line) in
  let* values := read_values float_endf (tags line) (Z.to_nat (N1 it)) in
  ret (it, values).

(** Modelled from the spec: records.py's reading of the region table
    after a TAB1 or TAB2 control line; [NR] pairs of integers, three pairs
    to a line. *)
Definition read_regions (tag : string) (NR : Z) : reader Tabulated2D :=
  let* flat := read_values int_endf tag (2 * Z.to_nat NR) in
  let (nbt, int) := unzip_flat flat in
  ret (mkTab2 nbt int).

(** Modelled from the spec: records.py's [get_tab1_record]; a control line
    giving [NR] and [NP], the region table, then [NP] pairs (x, y), three
    pairs to a line. *)
Definition read_tab1 : reader (tab1_params * Tabulated1D) :=
  let* line := next_line in
  let* it := lift (decode_control false line) in
  let* reg := read_regions (tags line) (N1 it) in
  let* flat := read_values float_endf (tags line) (2 * Z.to_nat (N2 it)) in
  let (x, y) := unzip_flat flat in
  ret (mkParams (C1 it) (C2 it) (L1 it) (L2 it), mkTab1 reg x y).

(** Modelled from the spec: records.py's [get_tab2_record]; the control
    line and the region table of a TAB1 record, and no table of values. *)
Definition read_tab2 : reader (items * Tabulated2D) :=
  let* line := next_line in
  let* it := lift (decode_control false line) in
  let* reg := read_regions (tags line) (N1 it) in
  ret (it, reg).

#[export] Instance records : Records := {
  get_head_record := read_control false;
  get_cont_record := read_control;
  get_text_record := read_text;
  get_tab1_record := read_tab1;
  get_list_record := read_list;
  get_tab2_record := read_tab2
}.

(** An instance of [Numpy] for shapes that are not negative: the values
    fill [a] rows of [b] columns, and a number of values other than
    [a * b] is a [ValueError].  What NumPy does with a negative length is
    left out of this instance ([ValueError] here). *)
Fixpoint chunks (a b : nat) (values : list Q) : list (list Q) :=
  match a with
  | O => []
  | Datatypes.S a' => firstn b values :: chunks a' b (skipn b values)
  end.

Definition set_shape (values : list Q) (a b : Z) : result ndarray2 :=
  if (a <? 0) || (b <? 0) then Raise ValueError
  else if Z.of_nat (length values) =? a * b
       then Ok (mkArray2 (Z.to_nat a) (Z.to_nat b)
                  (chunks (Z.to_nat a) (Z.to_nat b) values))
       else Raise ValueError.

#[export] Instance numpy : Numpy := { np_set_shape := set_shape }.

(** *** Writing the lines of a section *)

Fixpoint spaces (n : nat) : string :=
  match n with
  | O => EmptyString
  | Datatypes.S n' => String " " (spaces n')
  end.

(** [s.rjust(n)] *)
Definition rjust (n : nat) (s : string) : string :=
  (spaces (n - String.length s) ++ s)%string.

(** A line of six cells with its material, file and section tags and a
    sequence number. *)
Definition endf_line (c : list string) (mat mf mt : string) : string :=
  (rjust 11 (nth 0 c EmptyString) ++ rjust 11 (nth 1 c EmptyString) ++ rjust 11 (nth 2 c EmptyString)
   ++ rjust 11 (nth 3 c EmptyString) ++ rjust 11 (nth 4 c EmptyString) ++ rjust 11 (nth 5 c EmptyString)
   ++ rjust 4 mat ++ rjust 2 mf ++ rjust 3 mt ++ "    1" ++ String "010" EmptyString)%string.

End records_model.

(** ** Reference definitions

    What the loops of [legendre_data] and [tabulated_data] amount to, said
    in terms of the sequence of records they read. *)

Section Blocks.
Context {R : Records}.

(** The block made of a TAB2 record and the LIST records read after it:
    ['T'] and ['LT'] come from the last record alone. *)
Definition legendre_block (E_int : Tabulated2D) (recs : list (items * list Q))
  : endf.legendre_t :=
  {| endf.lg_E_int := E_int;
     endf.lg_T := option_map (fun r => C1 (fst r)) (last recs);
     endf.lg_LT := option_map (fun r => L1 (fst r)) (last recs);
     endf.lg_a_l := map snd recs;
     endf.lg_E := map (fun r => C2 (fst r)) recs |}.

Definition legendre_data_by_records : reader endf.legendre_t :=
  let* (params, E_int) := get_tab2_record in
  let* _ := np_zeros (N2 params) in
  let* recs := read_n (range_len (N2 params)) get_list_record in
  ret (legendre_block E_int recs).

(** The block made of a TAB2 record and the TAB1 records read after it. *)
Definition tabulated_block (E_int : Tabulated2D)
    (recs : list (tab1_params * Tabulated1D)) : endf.tabulated_t :=
  {| endf.tb_E_int := E_int;
     endf.tb_T := option_map (fun r => p_C1 (fst r)) (last recs);
     endf.tb_LT := option_map (fun r => p_L1 (fst r)) (last recs);
     endf.tb_E := map (fun r => p_C2 (fst r)) recs;
     endf.tb_mu := map snd recs |}.

Definition tabulated_data_by_records : reader endf.tabulated_t :=
  let* (params, E_int) := get_tab2_record in
  let* _ := np_zeros (N2 params) in
  let* recs := read_n (range_len (N2 params)) get_tab1_record in
  ret (tabulated_block E_int recs).

End Blocks.

(** ** Sample sections *)

Module sample.
Import records_model.

(** An instance of [EnergyDistributions] for evaluations that are read
    without the module [energy_distribution]: every decoder raises. *)
#[export] Instance no_energy_laws : EnergyDistributions := {
  arbitrary_dict := unit;
  energy_law := unit;
  ArbitraryTabulated_dict_from_endf := fun _ => raise (OtherError "ImportError");
  GeneralEvaporation_from_endf := fun _ => raise (OtherError "ImportError");
  MaxwellEnergy_from_endf := fun _ => raise (OtherError "ImportError");
  Evaporation_from_endf := fun _ => raise (OtherError "ImportError");
  WattEnergy_from_endf := fun _ => raise (OtherError "ImportError");
  MadlandNix_from_endf := fun _ => raise (OtherError "ImportError")
}.

(** The four lines of a section MF=1, MT=451 without text records and
    without a directory (NWD = 0, NXC = 0). *)
Definition header_lines (mat za awr elis lis liso nlib nsub : string)
  : list string :=
  [ endf_line [za; awr; "1"; "1"; nlib; "2"] mat "1" "451";
    endf_line [elis; "1.000000+0"; lis; liso; "0"; "6"] mat "1" "451";
    endf_line ["1.000000+0"; "2.000000+7"; "1"; "0"; nsub; "7"] mat "1" "451";
    endf_line ["0.000000+0"; "0.000000+0"; "0"; "0"; "0"; "0"] mat "1" "451" ].

(** Am-242 in its first isomeric state, with the raw state field 1. *)
Definition am242m1 : endf.sections_t :=
  [((1, 451), header_lines "9547" "9.524200+4" "2.399801+2" "4.860000+4" "1" "1"
                "0" "10")].

(** Am-242 in its ground state. *)
Definition am242 : endf.sections_t :=
  [((1, 451),
    header_lines "9543" "9.524200+4" "2.399801+2" "0.000000+0" "0" "0"
                "0" "10")].

(** U-235 in its ground state. *)
Definition u235 : endf.sections_t :=
  [((1, 451), header_lines "9228" "9.223500+4" "2.330248+2" "0.000000+0" "0" "0"
                "0" "10")].

(** A library code (99) that [_LIBRARY] does not have. *)
Definition u235_unknown_library : endf.sections_t :=
  [((1, 451), header_lines "9228" "9.223500+4" "2.330248+2" "0.000000+0" "0" "0"
                "99" "10")].

(** A sublibrary code (7) that [_SUBLIBRARY] does not have. *)
Definition u235_unknown_sublibrary : endf.sections_t :=
  [((1, 451), header_lines "9228" "9.223500+4" "2.330248+2" "0.000000+0" "0" "0"
                "0" "7")].

(** MF=4, MT=2 with LTT = 1 and two energy points; the LIST records carry
    the temperatures 100 and 300 and two coefficients each. *)
Definition mf4_legendre (ltt li : string) : list string :=
  [ endf_line ["9.223500+4"; "2.330248+2"; "0"; ltt; "0"; "0"] "9228" "4" "2";
    endf_line ["0.000000+0"; "2.330248+2"; li; "2"; "0"; "0"] "9228" "4" "2";
    endf_line ["0.000000+0"; "0.000000+0"; "0"; "0"; "1"; "2"] "9228" "4" "2";
    endf_line ["2"; "2"] "9228" "4" "2";
    endf_line ["1.000000+2"; "1.000000-5"; "7"; "0"; "2"; "2"] "9228" "4" "2";
    endf_line ["1.250000-1"; "2.500000-1"] "9228" "4" "2";
    endf_line ["3.000000+2"; "2.000000+7"; "9"; "0"; "2"; "2"] "9228" "4" "2";
    endf_line ["5.000000-1"; "7.500000-1"] "9228" "4" "2" ].

(** The same records under the pair (LTT, LI) = (1, 1), which is none of
    (0,1), (1,0), (2,0), (3,0). *)
Definition mf4_unsupported : endf.sections_t :=
  [((4, 2), mf4_legendre "1" "1")].

(** MF=6, MT=5 with one product; its yield table is followed by what the
    law asks for. *)
Definition mf6_head (nk : string) : string :=
  endf_line ["1.001000+3"; "9.991673-1"; "0"; "2"; nk; "0"] "125" "6" "5".

Definition mf6_yield (zap law : string) : list string :=
  [ endf_line [zap; "9.986235-1"; "0"; law; "1"; "2"] "125" "6" "5";
    endf_line ["2"; "2"] "125" "6" "5";
    endf_line ["1.000000+5"; "1.000000+0"; "2.000000+7"; "1.000000+0"]
      "125" "6" "5" ].

(** A TAB2 record announcing one energy point and the LIST record of that
    point: the layout of the data of LAW = 2 and of LAW = 5. *)
Definition mf6_one_point : list string :=
  [ endf_line ["5.000000-1"; "0.000000+0"; "1"; "0"; "1"; "1"] "125" "6" "5";
    endf_line ["1"; "2"] "125" "6" "5";
    endf_line ["0.000000+0"; "1.000000+5"; "1"; "0"; "2"; "2"] "125" "6" "5";
    endf_line ["2.500000-1"; "7.500000-1"] "125" "6" "5" ].

(** One product with LAW = 8. *)
Definition mf6_law8 : list string :=
  mf6_head "1" :: mf6_yield "1.001000+3" "8".

(** One product with LAW = 2. *)
Definition mf6_law2 : list string :=
  mf6_head "1" :: mf6_yield "1.001000+3" "2" ++ mf6_one_point.

(** Two products: a proton with LAW = 5 and its data, then an alpha
    particle with LAW = 0. *)
Definition mf6_law5 : list string :=
  mf6_head "2" :: mf6_yield "1.001000+3" "5" ++ mf6_one_point
    ++ mf6_yield "2.004000+3" "0".

(** MF=5, MT=18 with NK = 2: a general evaporation spectrum (LF = 5), then
    an arbitrary tabulated function (LF = 1). *)
Definition mf5_applicability (lf : string) : list string :=
  [ endf_line ["0.000000+0"; "0.000000+0"; "0"; lf; "1"; "2"] "9228" "5" "18";
    endf_line ["2"; "2"] "9228" "5" "18";
    endf_line ["1.000000-5"; "5.000000-1"; "2.000000+7"; "5.000000-1"]
      "9228" "5" "18" ].

Definition mf5_table : list string :=
  [ endf_line ["0.000000+0"; "0.000000+0"; "0"; "0"; "1"; "2"] "9228" "5" "18";
    endf_line ["2"; "2"] "9228" "5" "18";
    endf_line ["0.000000+0"; "1.000000+0"; "1.000000+1"; "0.000000+0"]
      "9228" "5" "18" ].

Definition mf5_lf5_then_lf1 : endf.sections_t :=
  [((5, 18),
    endf_line ["9.223500+4"; "2.330248+2"; "0"; "0"; "2"; "0"] "9228" "5" "18"
      :: mf5_applicability "5" ++ mf5_table ++ mf5_table
      ++ mf5_applicability "1"
      ++ [endf_line ["0.000000+0"; "0.000000+0"; "0"; "0"; "1"; "1"]
            "9228" "5" "18";
          endf_line ["1"; "2"] "9228" "5" "18"]
      ++ mf5_table)].

(** The line that ends a tape: its material tag reads -1. *)
Definition tape_end : string := endf_line [] "-1" "0" "0".

End sample.

(** ** Facts about the reader monad *)

Lemma bind_Ok {A B} (m : reader A) (k : A -> reader B) f a f' :
  m f = Ok (a, f') -> bind m k f = k a f'.
Proof. unfold bind. intros ->. reflexivity. Qed.

Lemma bind_ret {A B} (a : A) (k : A -> reader B) f : bind (ret a) k f = k a f.
Proof. reflexivity. Qed.

Lemma read_n_length {A} (m : reader A) n : forall f l f',
  read_n n m f = Ok (l, f') -> length l = n.
Proof.
  induction n as [|n IH]; simpl; intros f l f' E.
  - inversion E. reflexivity.
  - unfold bind in E. destruct (m f) as [[a f1]|e]; [|discriminate].
    destruct (read_n n m f1) as [[l1 f2]|e] eqn:E1; [|discriminate].
    inversion E; subst. simpl. f_equal. eauto.
Qed.

(** Writing at the first cell that is still zero. *)
Lemma insert_next_zero (done : list Q) (x : Q) (n : nat) :
  <[length done := x]> (done ++ replicate (Datatypes.S n) 0%Q)
  = (done ++ [x]) ++ replicate n 0%Q.
Proof.
  induction done as [|y done IH]; simpl.
  - reflexivity.
  - f_equal. exact IH.
Qed.

(** ** MF=4: what the loops over the energy points leave behind *)

Section AngularBlocks.
Context {R : Records}.

(** The loop of [legendre_data], run on an array whose cells from [i] on
    are still zero, against the records it reads. *)
Lemma legendre_loop n : forall (done : list Q) T LT a_l f,
  for_range n (length done) endf.legendre_step
    (T, LT, done ++ replicate n 0%Q, a_l) f
  = match read_n n get_list_record f with
    | Ok (recs, f') =>
        Ok ((match last recs with Some r => Some (C1 (fst r)) | None => T end,
             match last recs with Some r => Some (L1 (fst r)) | None => LT end,
             done ++ map (fun r => C2 (fst r)) recs,
             a_l ++ map snd recs), f')
    | Raise e => Raise e
    end.
Proof.
  induction n as [|n IH]; intros done T LT a_l f.
  - simpl. unfold ret. rewrite !app_nil_r. reflexivity.
  - cbn [for_range read_n]. unfold endf.legendre_step at 1.
    unfold bind.
    destruct (get_list_record f) as [[[it al] f1]|e]; [|reflexivity].
    unfold ret at 1. rewrite insert_next_zero.
    replace (Datatypes.S (length done)) with (length (done ++ [C2 it]))
      by (rewrite length_app; simpl; lia).
    rewrite IH.
    destruct (read_n n get_list_record f1) as [[recs f2]|e]; [|reflexivity].
    unfold ret. rewrite !last_cons. cbn [map fst snd].
    rewrite <- !app_assoc. cbn [app].
    destruct (last recs); reflexivity.
Qed.

Lemma tabulated_loop n : forall (done : list Q) T LT mu f,
  for_range n (length done) endf.tabulated_step
    (T, LT, done ++ replicate n 0%Q, mu) f
  = match read_n n get_tab1_record f with
    | Ok (recs, f') =>
        Ok ((match last recs with Some r => Some (p_C1 (fst r)) | None => T end,
             match last recs with Some r => Some (p_L1 (fst r)) | None => LT end,
             done ++ map (fun r => p_C2 (fst r)) recs,
             mu ++ map snd recs), f')
    | Raise e => Raise e
    end.
Proof.
  induction n as [|n IH]; intros done T LT mu f.
  - simpl. unfold ret. rewrite !app_nil_r. reflexivity.
  - cbn [for_range read_n]. unfold endf.tabulated_step at 1.
    unfold bind.
    destruct (get_tab1_record f) as [[[pr tab] f1]|e]; [|reflexivity].
    unfold ret at 1. rewrite insert_next_zero.
    replace (Datatypes.S (length done)) with (length (done ++ [p_C2 pr]))
      by (rewrite length_app; simpl; lia).
    rewrite IH.
    destruct (read_n n get_tab1_record f1) as [[recs f2]|e]; [|reflexivity].
    unfold ret. rewrite !last_cons. cbn [map fst snd].
    rewrite <- !app_assoc. cbn [app].
    destruct (last recs); reflexivity.
Qed.

End AngularBlocks.

(** C10.  In the block that [legendre_data] or [tabulated_data] returns,
    ['T'] and ['LT'] are those of the last energy point's record, and
    nothing else of the earlier records' temperatures and flags is kept:
    the block is the one built from the interpolation table, the energies
    and the coefficients (or tables) of all the records, and the last
    record's ['T'] and ['LT']. *)
Theorem angular_block_keeps_last_T_LT {R : Records} :
  (forall f, endf.legendre_data f = legendre_data_by_records f)
  /\ (forall f, endf.tabulated_data f = tabulated_data_by_records f)
  /\ (forall E_int recs r,
        endf.lg_T (legendre_block E_int (recs ++ [r])) = Some (C1 (fst r))
        /\ endf.lg_LT (legendre_block E_int (recs ++ [r])) = Some (L1 (fst r)))
  /\ (forall E_int recs r,
        endf.tb_T (tabulated_block E_int (recs ++ [r])) = Some (p_C1 (fst r))
        /\ endf.tb_LT (tabulated_block E_int (recs ++ [r]))
           = Some (p_L1 (fst r))).
Proof.
  repeat split.
  - intros f. unfold endf.legendre_data, legendre_data_by_records, bind.
    destruct (get_tab2_record f) as [[[params E_int] f1]|e]; [|reflexivity].
    unfold np_zeros. destruct (N2 params <? 0); [reflexivity|].
    unfold ret at 1 3.
    pose proof (legendre_loop (range_len (N2 params)) [] None None [] f1) as L.
    cbn [length app] in L. unfold range_len in *. rewrite L.
    destruct (read_n _ get_list_record f1) as [[recs f2]|e]; reflexivity.
  - intros f. unfold endf.tabulated_data, tabulated_data_by_records, bind.
    destruct (get_tab2_record f) as [[[params E_int] f1]|e]; [|reflexivity].
    unfold np_zeros. destruct (N2 params <? 0); [reflexivity|].
    unfold ret at 1 3.
    pose proof (tabulated_loop (range_len (N2 params)) [] None None [] f1) as L.
    cbn [length app] in L. unfold range_len in *. rewrite L.
    destruct (read_n _ get_tab1_record f1) as [[recs f2]|e]; reflexivity.
  - cbn. rewrite last_snoc. reflexivity.
  - cbn. rewrite last_snoc. reflexivity.
  - cbn. rewrite last_snoc. reflexivity.
  - cbn. rewrite last_snoc. reflexivity.
Qed.

(** Two energy points at the temperatures 100 and 300: the block holds
    300 and the flag of the second record. *)
Example legendre_two_points :
  exists lg f',
    endf.legendre_data (R := records_model.records)
      (mkFile (sample.mf4_legendre "1" "0") 2) = Ok (lg, f')
    /\ endf.lg_T lg = Some (inject_Z 300)
    /\ endf.lg_LT lg = Some 9
    /\ length (endf.lg_a_l lg) = 2%nat
    /\ pos f' = 8%nat.
Proof. do 2 eexists. split; [vm_compute; reflexivity|]. repeat split. Qed.

(** ** MF=1, MT=451: the header *)

Lemma float_eq_int_iff (x : Q) (n : Z) :
  float_eq_int x n = true <-> (x == inject_Z n)%Q.
Proof. unfold float_eq_int. apply Qeq_bool_iff. Qed.

(** Splitting a successful [bind]. *)
Lemma bind_inv {A B} (m : reader A) (k : A -> reader B) f r :
  bind m k f = Ok r -> exists a f', m f = Ok (a, f') /\ k a f' = Ok r.
Proof.
  unfold bind. destruct (m f) as [[a f']|e]; [|discriminate].
  intros E. exists a, f'. auto.
Qed.

Ltac bind_inv H :=
  let a := fresh "a" in
  let f := fresh "f" in
  let E := fresh "E" in
  apply bind_inv in H; destruct H as (a & f & E & H).

Section Header.
Context {R : Records}.

(** What [_read_mf1_mt451] does once the HEAD record and the first control
    record are read. *)
Lemma read_mf1_mt451_state (f f1 f2 f' : file_obj) (items0 items1 : items)
    (h : endf.header_t) :
  get_head_record f = Ok (items0, f1) ->
  get_cont_record false f1 = Ok (items1, f2) ->
  endf.read_mf1_mt451_body f = Ok (h, f') ->
  endf.atomic_number (endf.target h) = fst (py_divmod (C1 items0) 1000)
  /\ endf.mass_number (endf.target h) = snd (py_divmod (C1 items0) 1000)
  /\ endf.isomeric_state (endf.target h) = L2 items1
  /\ endf.state (endf.target h)
     = if float_eq_int (fst (py_divmod (C1 items0) 1000)) 95
          && float_eq_int (snd (py_divmod (C1 items0) 1000)) 242
          && (L2 items1 =? 1)
       then 2 else L1 items1.
Proof.
  intros H0 H1 E. unfold endf.read_mf1_mt451_body in E.
  rewrite (bind_Ok _ _ _ _ _ H0) in E.
  destruct (py_divmod (C1 items0) 1000) as [Z_ A_].
  rewrite (bind_Ok _ _ _ _ _ H1) in E.
  destruct (negb (N2 items1 =? 6)); [discriminate|].
  bind_inv E.
  destruct (dict_get Z.eqb (N1 a) endf._SUBLIBRARY); [|discriminate].
  bind_inv E. bind_inv E.
  destruct (5 <=? length a1)%nat; bind_inv E; inversion E; subst; cbn;
    repeat split.
Qed.

(** The header that a section yields when each of its records can be read
    and the sublibrary is known. *)
Lemma read_mf1_mt451_ok (f f1 f2 f3 f4 f5 f6 : file_obj)
    (items0 items1 items2 items3 : items) (name : string)
    (texts : list string) (reactions : list (Z * Z * Z * Z)) :
  get_head_record f = Ok (items0, f1) ->
  get_cont_record false f1 = Ok (items1, f2) ->
  N2 items1 = 6 ->
  get_cont_record false f2 = Ok (items2, f3) ->
  dict_get Z.eqb (N1 items2) endf._SUBLIBRARY = Some name ->
  get_cont_record false f3 = Ok (items3, f4) ->
  read_n (range_len (N1 items3)) get_text_record f4 = Ok (texts, f5) ->
  read_n (range_len (N2 items3)) endf.read_reaction f5 = Ok (reactions, f6) ->
  exists h,
    endf.read_mf1_mt451_body f = Ok (h, f6)
    /\ endf.sublibrary (endf.info h) = name
    /\ fst (fst (endf.library (endf.info h)))
       = match dict_get Z.eqb (N1 items0) endf._LIBRARY with
         | Some lib => lib
         | None => "Unknown"
         end
    /\ endf.reaction_list h = reactions
    /\ endf.zsymam (endf.target h)
       = (if (5 <=? length texts)%nat then py_slice 0 11 (nth 0 texts EmptyString)
          else "Unknown")
    /\ (if (5 <=? length texts)%nat
        then exists d, endf.described (endf.info h) = Some d
                       /\ endf.description d = skipn 5 texts
        else endf.described (endf.info h) = None).
Proof.
  intros H0 H1 Hfmt H2 Hsub H3 Ht Hr. unfold endf.read_mf1_mt451_body.
  rewrite (bind_Ok _ _ _ _ _ H0).
  destruct (py_divmod (C1 items0) 1000) as [Z_ A_].
  rewrite (bind_Ok _ _ _ _ _ H1). rewrite Hfmt. cbn [Z.eqb Pos.eqb negb].
  rewrite (bind_Ok _ _ _ _ _ H2). rewrite Hsub.
  rewrite (bind_Ok _ _ _ _ _ H3). rewrite (bind_Ok _ _ _ _ _ Ht).
  destruct (5 <=? length texts)%nat; rewrite (bind_Ok _ _ _ _ _ Hr);
    eexists; (split; [reflexivity|]); cbn; repeat split; eauto.
Qed.

(** C7.  After the header is parsed, the excited-state index of the target
    is 2 when its atomic number is 95, its mass number 242 and its isomeric
    state 1, whatever the state field of the first control record holds; in
    every other case it is that field. *)
Theorem excited_state_after_header (section : endf.sections_t)
    (text : list string) (items0 items1 : items) (f1 f2 : file_obj)
    (h : endf.header_t) :
  dict_get key_eqb (1, 451) section = Some text ->
  get_head_record (StringIO text) = Ok (items0, f1) ->
  get_cont_record false f1 = Ok (items1, f2) ->
  endf._read_mf1_mt451 section = Ok h ->
  ((endf.atomic_number (endf.target h) == 95)%Q
   /\ (endf.mass_number (endf.target h) == 242)%Q
   /\ endf.isomeric_state (endf.target h) = 1 ->
   endf.state (endf.target h) = 2)
  /\ (~ ((endf.atomic_number (endf.target h) == 95)%Q
         /\ (endf.mass_number (endf.target h) == 242)%Q
         /\ endf.isomeric_state (endf.target h) = 1) ->
      endf.state (endf.target h) = L1 items1).
Proof.
  intros Hs H0 H1 E. unfold endf._read_mf1_mt451, endf.section_lookup in E.
  rewrite Hs in E.
  destruct (endf.read_mf1_mt451_body (StringIO text)) as [[h' f']|e] eqn:Eb;
    [|discriminate].
  inversion E; subst h'; clear E.
  destruct (read_mf1_mt451_state _ _ _ _ _ _ _ H0 H1 Eb) as (EZ & EA & Em & Est).
  rewrite EZ, EA, Em, Est.
  destruct (float_eq_int (fst (py_divmod (C1 items0) 1000)) 95) eqn:B1;
  destruct (float_eq_int (snd (py_divmod (C1 items0) 1000)) 242) eqn:B2;
  destruct (L2 items1 =? 1) eqn:B3; cbn [andb];
    try apply float_eq_int_iff in B1; try apply float_eq_int_iff in B2;
    try apply Z.eqb_eq in B3;
    (split; [intros (Q1 & Q2 & Q3) | intros N]); try reflexivity;
    try (exfalso; apply N; auto).
  all: try (apply float_eq_int_iff in Q1; congruence).
  all: try (apply float_eq_int_iff in Q2; congruence).
  all: try (apply Z.eqb_eq in Q3; congruence).
Qed.

End Header.

(** Am-242m1 with the raw state field 1: the index is 2.  Am-242 in its
    ground state: the index is the raw field, 0. *)
Lemma excited_state_after_header_witness :
  (exists h,
     endf._read_mf1_mt451 (R := records_model.records) sample.am242m1 = Ok h
     /\ endf.state (endf.target h) = 2)
  /\ (exists h,
       endf._read_mf1_mt451 (R := records_model.records) sample.am242 = Ok h
       /\ endf.state (endf.target h) = 0).
Proof.
  split.
  - eexists. split; [vm_compute; reflexivity|].
    refine (proj1 (excited_state_after_header (R := records_model.records)
              sample.am242m1 _ _ (mkItems (inject_Z 48600) 1 1 1 0 6) _ _ _
              eq_refl _ _ eq_refl) _).
    + vm_compute. reflexivity.
    + vm_compute. reflexivity.
    + vm_compute. repeat split; reflexivity.
  - eexists. split; [vm_compute; reflexivity|].
    refine (proj2 (excited_state_after_header (R := records_model.records)
              sample.am242 _ _ (mkItems 0 1 0 0 0 6) _ _ _
              eq_refl _ _ eq_refl) _).
    + vm_compute. reflexivity.
    + vm_compute. reflexivity.
    + intros (_ & _ & Hm). vm_compute in Hm. discriminate Hm.
Defined.

(** C8.  A library code that [_LIBRARY] does not have gives the library
    name "Unknown" and the header is parsed to its end; a sublibrary code
    that [_SUBLIBRARY] does not have ends the parse with [KeyError],
    whatever the library code is. *)
Theorem library_fallback_sublibrary_fatal {R : Records}
    (section : endf.sections_t) (text : list string)
    (items0 items1 items2 : items) (f1 f2 f3 : file_obj) :
  dict_get key_eqb (1, 451) section = Some text ->
  get_head_record (StringIO text) = Ok (items0, f1) ->
  get_cont_record false f1 = Ok (items1, f2) ->
  N2 items1 = 6 ->
  get_cont_record false f2 = Ok (items2, f3) ->
  (dict_get Z.eqb (N1 items2) endf._SUBLIBRARY = None ->
   endf._read_mf1_mt451 section = Raise KeyError)
  /\ (forall name items3 f4 texts f5 reactions f6,
        dict_get Z.eqb (N1 items2) endf._SUBLIBRARY = Some name ->
        get_cont_record false f3 = Ok (items3, f4) ->
        read_n (range_len (N1 items3)) get_text_record f4 = Ok (texts, f5) ->
        read_n (range_len (N2 items3)) endf.read_reaction f5
          = Ok (reactions, f6) ->
        exists h,
          endf._read_mf1_mt451 section = Ok h
          /\ endf.sublibrary (endf.info h) = name
          /\ (dict_get Z.eqb (N1 items0) endf._LIBRARY = None ->
              fst (fst (endf.library (endf.info h))) = "Unknown")
          /\ (forall lib,
                dict_get Z.eqb (N1 items0) endf._LIBRARY = Some lib ->
                fst (fst (endf.library (endf.info h))) = lib)).
Proof.
  intros Hs H0 H1 Hfmt H2. split.
  - intros Hsub. unfold endf._read_mf1_mt451, endf.section_lookup.
    rewrite Hs. unfold endf.read_mf1_mt451_body.
    rewrite (bind_Ok _ _ _ _ _ H0).
    destruct (py_divmod (C1 items0) 1000) as [Z_ A_].
    rewrite (bind_Ok _ _ _ _ _ H1). rewrite Hfmt. cbn [Z.eqb Pos.eqb negb].
    rewrite (bind_Ok _ _ _ _ _ H2). rewrite Hsub. reflexivity.
  - intros name items3 f4 texts f5 reactions f6 Hsub H3 Ht Hr.
    destruct (read_mf1_mt451_ok _ _ _ _ _ _ _ _ _ _ _ _ _ _
                H0 H1 Hfmt H2 Hsub H3 Ht Hr) as (h & E & Esub & Elib & _).
    exists h. unfold endf._read_mf1_mt451, endf.section_lookup.
    rewrite Hs, E. repeat split; auto.
    + intros Hn. rewrite Elib, Hn. reflexivity.
    + intros lib Hl. rewrite Elib, Hl. reflexivity.
Qed.

(** The library code 99 with the sublibrary code 10: the header is parsed
    and the library is "Unknown".  The library code 0 with the sublibrary
    code 7: [KeyError]. *)
Lemma library_fallback_sublibrary_fatal_witness :
  (exists h,
     endf._read_mf1_mt451 (R := records_model.records)
       sample.u235_unknown_library = Ok h
     /\ fst (fst (endf.library (endf.info h))) = "Unknown")
  /\ endf._read_mf1_mt451 (R := records_model.records)
       sample.u235_unknown_sublibrary = Raise KeyError.
Proof.
  split.
  - edestruct (library_fallback_sublibrary_fatal (R := records_model.records)
                 sample.u235_unknown_library) as [_ Hok];
      [vm_compute; reflexivity ..|].
    edestruct Hok as (h & E & _ & Elib & _); [vm_compute; reflexivity ..|].
    exists h. split; [exact E|]. apply Elib. vm_compute. reflexivity.
  - edestruct (library_fallback_sublibrary_fatal (R := records_model.records)
                 sample.u235_unknown_sublibrary) as [Hk _];
      [vm_compute; reflexivity ..|].
    apply Hk. vm_compute. reflexivity.
Defined.

(** C9.  A header section that declares NWD text records has exactly NWD
    of them read, between the third control record and the directory.
    With fewer than five the name of the target is "Unknown" and the parse
    goes on to its end; with NWD = 0 and NXC = 0 the section of four
    records is parsed with the name "Unknown". *)
Theorem text_records_of_header {R : Records}
    (section : endf.sections_t) (text : list string)
    (items0 items1 items2 items3 : items) (f1 f2 f3 f4 f5 f6 : file_obj)
    (name : string) (texts : list string) (reactions : list (Z * Z * Z * Z)) :
  dict_get key_eqb (1, 451) section = Some text ->
  get_head_record (StringIO text) = Ok (items0, f1) ->
  get_cont_record false f1 = Ok (items1, f2) ->
  N2 items1 = 6 ->
  get_cont_record false f2 = Ok (items2, f3) ->
  dict_get Z.eqb (N1 items2) endf._SUBLIBRARY = Some name ->
  get_cont_record false f3 = Ok (items3, f4) ->
  read_n (range_len (N1 items3)) get_text_record f4 = Ok (texts, f5) ->
  read_n (range_len (N2 items3)) endf.read_reaction f5 = Ok (reactions, f6) ->
  exists h,
    endf.read_mf1_mt451_body (StringIO text) = Ok (h, f6)
    /\ endf._read_mf1_mt451 section = Ok h
    /\ Z.of_nat (length texts) = Z.max 0 (N1 items3)
    /\ (N1 items3 < 5 ->
        endf.zsymam (endf.target h) = "Unknown"
        /\ endf.described (endf.info h) = None)
    /\ (5 <= N1 items3 ->
        endf.zsymam (endf.target h) = py_slice 0 11 (nth 0 texts EmptyString)
        /\ exists d, endf.described (endf.info h) = Some d
                     /\ endf.description d = skipn 5 texts).
Proof.
  intros Hs H0 H1 Hfmt H2 Hsub H3 Ht Hr.
  destruct (read_mf1_mt451_ok _ _ _ _ _ _ _ _ _ _ _ _ _ _
              H0 H1 Hfmt H2 Hsub H3 Ht Hr)
    as (h & E & _ & _ & _ & Ez & Ed).
  pose proof (read_n_length _ _ _ _ _ Ht) as Len. unfold range_len in Len.
  exists h. split; [exact E|]. split.
  { unfold endf._read_mf1_mt451, endf.section_lookup. rewrite Hs, E.
    reflexivity. }
  split; [lia|]. split; intros Hn.
  - destruct (Nat.leb_spec 5 (length texts)) as [Hle|Hlt]; [lia|]. auto.
  - destruct (Nat.leb_spec 5 (length texts)) as [Hle|Hlt]; [|lia]. auto.
Qed.

(** The header of four records (NWD = 0, NXC = 0): parsed, with no text
    record read and the name "Unknown". *)
Lemma text_records_of_header_witness :
  exists h f6,
    endf.read_mf1_mt451_body (R := records_model.records)
      (StringIO (sample.header_lines "9228" "9.223500+4" "2.330248+2"
                   "0.000000+0" "0" "0" "0" "10")) = Ok (h, f6)
    /\ pos f6 = 4%nat
    /\ endf._read_mf1_mt451 (R := records_model.records) sample.u235 = Ok h
    /\ endf.zsymam (endf.target h) = "Unknown".
Proof.
  edestruct (text_records_of_header (R := records_model.records) sample.u235)
    as (h & E & E' & _ & Hlt & _); [vm_compute; reflexivity ..|].
  exists h. eexists. split; [exact E|]. split; [reflexivity|].
  split; [exact E'|]. apply Hlt. vm_compute. reflexivity.
Defined.

(** ** MF=4: pairs (LTT, LI) outside the four that are dispatched *)

Lemma skip_lines_total n : forall f,
  exists skipped f', read_n n readline_ f = Ok (skipped, f').
Proof.
  induction n as [|n IH]; intros f; cbn [read_n].
  - do 2 eexists. reflexivity.
  - unfold bind. unfold readline_ at 1. destruct (readline f) as [line f1].
    destruct (IH f1) as (sk & f2 & E). rewrite E. do 2 eexists. reflexivity.
Qed.

(** The sample section with LTT = 1 and LI = 1 is read without any error:
    its entry holds the three flags and nothing else, and the TAB2 and LIST
    records that follow are not looked at. *)
Lemma unsupported_angular_pair_not_reported :
  endf._read_mf4 (R := records_model.records) sample.mf4_unsupported
  = Ok ([(2, {| endf.LTT := 1; endf.LI := 1; endf.LCT := 2;
                endf.legendre := None; endf.tabulated := None |})], []).
Proof. vm_compute. reflexivity. Qed.

(** C3 (amended).  For a section MF=4 whose pair (LTT, LI) is none of
    (0,1), (1,0), (2,0), (3,0), no error is signalled: the entry of the
    section holds LTT, LI and LCT with neither a Legendre nor a tabulated
    block, and no record is read after the control record (the lines of an
    obsolete transformation matrix aside). *)
Theorem unsupported_angular_pair_ignored {R : Records}
    (f f1 f2 : file_obj) (items0 items1 : items) :
  get_head_record f = Ok (items0, f1) ->
  get_cont_record false f1 = Ok (items1, f2) ->
  ~ In (L2 items0, L1 items1) [(0, 1); (1, 0); (2, 0); (3, 0)] ->
  exists warned f3,
    endf.read_mf4_section f
    = Ok (({| endf.LTT := L2 items0; endf.LI := L1 items1;
              endf.LCT := L2 items1;
              endf.legendre := None; endf.tabulated := None |}, warned), f3)
    /\ (L1 items0 <= 0 -> warned = [] /\ f3 = f2)
    /\ (0 < L1 items0 ->
        warned = [endf.obsolete_matrix_warning]
        /\ exists skipped,
             read_n (range_len ((N1 items1 + 5) / 6)) readline_ f2
             = Ok (skipped, f3)).
Proof.
  intros H0 H1 Hpair. unfold endf.read_mf4_section.
  rewrite (bind_Ok _ _ _ _ _ H0), (bind_Ok _ _ _ _ _ H1).
  assert (Hb : forall a b,
             In (a, b) [(0, 1); (1, 0); (2, 0); (3, 0)] ->
             (L2 items0 =? a) && (L1 items1 =? b) = false).
  { intros a b Hin. apply andb_false_iff.
    destruct (Z.eqb_spec (L2 items0) a) as [Ea|]; [|auto].
    destruct (Z.eqb_spec (L1 items1) b) as [Eb|]; [|auto].
    exfalso. apply Hpair. rewrite Ea, Eb. exact Hin. }
  assert (B1 := Hb 0 1 ltac:(cbn; auto)).
  assert (B2 := Hb 1 0 ltac:(cbn; auto)).
  assert (B3 := Hb 2 0 ltac:(cbn; auto)).
  assert (B4 := Hb 3 0 ltac:(cbn; auto 6)).
  destruct (Z.ltb_spec 0 (L1 items0)) as [Hpos|Hneg].
  - destruct (skip_lines_total (range_len ((N1 items1 + 5) / 6)) f2)
      as (sk & f3 & E).
    rewrite (bind_Ok _ _ _ [endf.obsolete_matrix_warning] f3).
    2: { rewrite (bind_Ok _ _ _ _ _ E). reflexivity. }
    rewrite B1, B2, B3, B4. do 2 eexists. split; [reflexivity|].
    split; [lia|]. intros _. split; [reflexivity|]. exists sk. exact E.
  - rewrite bind_ret. rewrite B1, B2, B3, B4. do 2 eexists.
    split; [reflexivity|]. split; [auto|lia].
Qed.

Lemma unsupported_angular_pair_ignored_witness :
  exists f3,
    endf.read_mf4_section (R := records_model.records)
      (StringIO (sample.mf4_legendre "1" "1"))
    = Ok (({| endf.LTT := 1; endf.LI := 1; endf.LCT := 2;
              endf.legendre := None; endf.tabulated := None |}, []), f3)
    /\ pos f3 = 2%nat.
Proof.
  edestruct (unsupported_angular_pair_ignored (R := records_model.records)
               (StringIO (sample.mf4_legendre "1" "1")))
    as (warned & f3 & E & Hle & _).
  - vm_compute. reflexivity.
  - vm_compute. reflexivity.
  - vm_compute. intros [E|[E|[E|[E|[]]]]]; discriminate E.
  - destruct Hle as [-> ->]; [vm_compute; discriminate|].
    eexists. split; [exact E|]. reflexivity.
Defined.

(** ** MF=6: the dispatch on LAW *)

(** The sample section whose only product has LAW = 8 is read without any
    error: the product is recorded, without a distribution. *)
Lemma unrecognized_law_not_reported :
  exists d f',
    mf6.parse_mf6 (R := records_model.records) (NP := records_model.numpy)
      (StringIO sample.mf6_law8) = Ok (d, f')
    /\ map mf6.LAW (mf6.products d) = [8]
    /\ map mf6.distribution (mf6.products d) = [None]
    /\ pos f' = length sample.mf6_law8.
Proof. do 2 eexists. split; [vm_compute; reflexivity|]. repeat split. Qed.

(** C4 (amended).  For a product whose LAW is greater than 7 no error is
    raised: the product is recorded with the fields of its yield record and
    no distribution, nothing is read after the yield record, and the loop
    goes on to the next product. *)
Theorem unrecognized_law_ignored {R : Records} {NP : Numpy}
    (f f1 : file_obj) (params : tab1_params) (y : Tabulated1D) :
  get_tab1_record f = Ok ((params, y), f1) ->
  7 < p_L2 params ->
  mf6.read_product f
  = Ok ({| mf6.ZAP := py_int_of_float (p_C1 params);
           mf6.AWP := p_C2 params;
           mf6.LIP := p_L1 params;
           mf6.LAW := p_L2 params;
           mf6.y_i := y;
           mf6.distribution := None |}, f1).
Proof.
  intros Ht Hlaw. unfold mf6.read_product.
  rewrite (bind_Ok _ _ _ _ _ Ht). unfold mf6.law_dispatch.
  destruct (Z.ltb_spec (p_L2 params) 0); [lia|].
  repeat (match goal with
          | |- context [?a =? ?b] =>
              destruct (Z.eqb_spec a b) as [E|_]; [lia|]
          end).
  reflexivity.
Qed.

Lemma unrecognized_law_ignored_witness :
  exists p f1,
    mf6.read_product (R := records_model.records) (NP := records_model.numpy)
      (mkFile sample.mf6_law8 1) = Ok (p, f1)
    /\ mf6.LAW p = 8
    /\ mf6.distribution p = None
    /\ pos f1 = 4%nat.
Proof.
  do 2 eexists. split.
  - eapply (unrecognized_law_ignored (R := records_model.records)
              (NP := records_model.numpy) (mkFile sample.mf6_law8 1)).
    + vm_compute. reflexivity.
    + vm_compute. reflexivity.
  - repeat split.
Defined.

(** The stubs of LAW = 5 and LAW = 7 leave the file object where the yield
    record ended. *)
Lemma stub_law_reads_nothing {R : Records} {NP : Numpy}
    (f f1 : file_obj) (params : tab1_params) (y : Tabulated1D) :
  get_tab1_record f = Ok ((params, y), f1) ->
  p_L2 params = 5 \/ p_L2 params = 7 ->
  exists p, mf6.read_product f = Ok (p, f1)
            /\ mf6.distribution p = Some mf6.EmptyDict.
Proof.
  intros Ht Hlaw. unfold mf6.read_product.
  rewrite (bind_Ok _ _ _ _ _ Ht).
  destruct Hlaw as [-> | ->]; eexists; split; reflexivity.
Qed.

(** C2 (at the failing input).  Two products, the first with LAW = 5 and
    a TAB2 and a LIST record of data, the second an alpha particle: the
    data of the first product are taken for the yield record of the second,
    whose ZAP reads 0 instead of 2004, and the parse ends at line 7 of the
    11 lines of the section. *)
Theorem law5_data_read_as_next_product :
  exists d f',
    mf6.parse_mf6 (R := records_model.records) (NP := records_model.numpy)
      (StringIO sample.mf6_law5) = Ok (d, f')
    /\ map mf6.ZAP (mf6.products d) = [1001; 0]
    /\ map mf6.distribution (mf6.products d) = [Some mf6.EmptyDict; None]
    /\ pos f' = 7%nat
    /\ length sample.mf6_law5 = 11%nat.
Proof. do 2 eexists. split; [vm_compute; reflexivity|]. repeat split. Qed.

(** [DiscreteTwoBodyScattering.dict_from_endf] returns [None] whenever it
    returns. *)
Lemma discrete_two_body_returns_None {R : Records} (f f' : file_obj)
    (d : mf6.distribution_t) :
  mf6.DiscreteTwoBodyScattering_dict_from_endf f = Ok (d, f') ->
  d = mf6.PyNone.
Proof.
  unfold mf6.DiscreteTwoBodyScattering_dict_from_endf. intros E.
  bind_inv E. inversion E. reflexivity.
Qed.

(** A product with LAW = 2 that is read at all has [None] for its
    distribution. *)
Lemma law2_product_has_None {R : Records} {NP : Numpy}
    (f f1 f' : file_obj) (params : tab1_params) (y : Tabulated1D)
    (p : mf6.product_t) :
  get_tab1_record f = Ok ((params, y), f1) ->
  p_L2 params = 2 ->
  mf6.read_product f = Ok (p, f') ->
  mf6.distribution p = Some mf6.PyNone.
Proof.
  intros Ht Hlaw E. unfold mf6.read_product in E.
  rewrite (bind_Ok _ _ _ _ _ Ht) in E. rewrite Hlaw in E.
  unfold mf6.law_dispatch in E. cbn [Z.ltb Z.eqb Z.compare Pos.eqb] in E.
  bind_inv E. bind_inv E0.
  apply discrete_two_body_returns_None in E1. subst.
  inversion E0; subst. inversion E; subst. reflexivity.
Qed.

(** C5 (at the failing input).  One product with LAW = 2, a TAB2 record
    announcing one energy and the LIST record of that energy: all eight
    lines are read, and the distribution of the product is [None]. *)
Theorem law2_distribution_is_None :
  exists d f',
    mf6.parse_mf6 (R := records_model.records) (NP := records_model.numpy)
      (StringIO sample.mf6_law2) = Ok (d, f')
    /\ map mf6.LAW (mf6.products d) = [2]
    /\ map mf6.distribution (mf6.products d) = [Some mf6.PyNone]
    /\ pos f' = length sample.mf6_law2.
Proof. do 2 eexists. split; [vm_compute; reflexivity|]. repeat split. Qed.

(** ** MF=5: the return from inside the loop *)

(** Whenever the first sub-distribution of a section carries one of the
    laws 5, 7, 9, 11, 12, the section's entry is left without any
    subsection, whatever NK is and whatever the decoder of the law does. *)
Lemma lf_return_drops_subsections {R : Records} {ED : EnergyDistributions}
    (f f1 f2 : file_obj) (items0 : items) (params : tab1_params)
    (applicability : Tabulated1D) (dist : option arbitrary_dict) :
  get_head_record f = Ok (items0, f1) ->
  0 < N1 items0 ->
  get_tab1_record f1 = Ok ((params, applicability), f2) ->
  In (p_L2 params) [5; 7; 9; 11; 12] ->
  match endf.read_mf5_section dist f with
  | Ok (endf.Return (_, data) _, _) =>
      endf.NK data = N1 items0 /\ endf.subsections data = []
  | Ok (endf.Continue _, _) => False
  | Raise _ => True
  end.
Proof.
  intros H0 Hpos H1 Hlf. unfold endf.read_mf5_section.
  rewrite (bind_Ok _ _ _ _ _ H0). unfold range_len.
  destruct (Z.to_nat (N1 items0)) as [|n] eqn:En; [lia|].
  cbn [endf.mf5_subsections]. unfold bind at 1 2. rewrite H1.
  unfold endf.mf5_dispatch.
  cbn in Hlf.
  destruct Hlf as [E|[E|[E|[E|[E|[]]]]]]; rewrite <- E;
    cbn [Z.eqb Pos.eqb]; unfold bind;
    match goal with
    | |- context [match ?m params f2 with _ => _ end] =>
        destruct (m params f2) as [[law f3]|e]
    end; cbn; auto.
Qed.

(** C1 (at the failing input).  A section MF=5 with NK = 2 whose first
    sub-distribution has LF = 5: [_read_mf5] hands the stream to
    [GeneralEvaporation.from_endf] and returns what it returns; the entry
    of the section holds NK = 2 and no subsection at all. *)
Theorem mf5_returns_at_first_lf5 {ED : EnergyDistributions} :
  endf._read_mf5 (R := records_model.records) sample.mf5_lf5_then_lf1
  = match GeneralEvaporation_from_endf (mkParams 0 0 0 5)
            (mkFile (snd (nth 0 sample.mf5_lf5_then_lf1 ((0, 0), []))) 4) with
    | Ok (law, _) =>
        Ok ([(18, {| endf.NK := 2; endf.subsections := [] |})], Some law)
    | Raise e => Raise e
    end.
Proof.
  pose (text := snd (nth 0 sample.mf5_lf5_then_lf1 ((0, 0), []))).
  assert (H0 : exists items,
             get_head_record (Records := records_model.records)
               (StringIO text) = Ok (items, mkFile text 1)
             /\ N1 items = 2)
    by (eexists; split; vm_compute; reflexivity).
  assert (H1 : exists tab,
             get_tab1_record (Records := records_model.records)
               (mkFile text 1) = Ok ((mkParams 0 0 0 5, tab), mkFile text 4))
    by (eexists; vm_compute; reflexivity).
  destruct H0 as (items & H0 & HNK). destruct H1 as (tab & H1).
  change (endf._read_mf5 (R := records_model.records) [((5, 18), text)]
          = match GeneralEvaporation_from_endf (mkParams 0 0 0 5)
                    (mkFile text 4) with
            | Ok (law, _) =>
                Ok ([(18, {| endf.NK := 2; endf.subsections := [] |})],
                    Some law)
            | Raise e => Raise e
            end).
  clearbody text.
  unfold endf._read_mf5. cbn [endf.read_mf5_items Z.eqb Pos.eqb negb].
  unfold endf.read_mf5_section. rewrite (bind_Ok _ _ _ _ _ H0), HNK.
  change (range_len 2) with 2%nat. cbn [endf.mf5_subsections].
  unfold bind at 1 2. rewrite H1. cbn [p_L2].
  unfold endf.mf5_dispatch. cbn [Z.eqb Pos.eqb]. unfold bind.
  destruct (GeneralEvaporation_from_endf (mkParams 0 0 0 5) (mkFile text 4))
    as [[law f']|e]; reflexivity.
Qed.

(** ** The end of the tape *)

(** C6.  On a stream that holds no evaluation and starts with the line
    that ends the tape (material tag -1), [get_evaluations] returns the
    empty list. *)
Theorem no_evaluation_before_tape_end {R : Records} {ED : EnergyDistributions}
    (fuel : nat) (line : string) (rest : list string) :
  py_slice 66 70 line = "  -1" ->
  endf.get_evaluations (Datatypes.S fuel) (line :: rest) = Some (Ok []).
Proof.
  intros Hend. unfold endf.get_evaluations. cbn [endf.get_evaluations_loop].
  unfold readline. cbn [content pos nth_error]. rewrite Hend. reflexivity.
Qed.

Lemma no_evaluation_before_tape_end_witness :
  endf.get_evaluations (R := records_model.records)
    (ED := sample.no_energy_laws) 1 [sample.tape_end] = Some (Ok []).
Proof.
  apply (no_evaluation_before_tape_end (R := records_model.records)
           (ED := sample.no_energy_laws) 0 sample.tape_end []).
  vm_compute. reflexivity.
Defined.

(** A tape identification line followed at once by the line that ends the
    tape: the first line is not the end, the evaluation that is then
    started skips it and looks for a line with a file number past the end
    of the stream, where [int('')] raises. *)
Example tape_id_then_tape_end :
  endf.get_evaluations (R := records_model.records)
    (ED := sample.no_energy_laws) 3
    [records_model.endf_line [] "1" "0" "0"; sample.tape_end]
  = Some (Raise ValueError).
Proof. vm_compute. reflexivity. Qed.
